(* ===== verification/_CoqProject ===== *)
-Q . S2P
Spec2Rocq.v
Text.v
Matcher.v
Extract.v
Pipeline.v
