(* ===== verification/Spec2Rocq.v ===== *)
(** * A verification development for Resume-Matcher

    The repository has two front ends over one matching pipeline:
    - [src/main.py], a Flask app: at start-up it scans [input_data/],
      extracts the text of every regular file ([extract_text]), fits a
      [TfidfVectorizer] on all texts, and on each POST to [/matcher]
      validates the job description, computes cosine similarities, takes
      the five best indices ([argsort()[-5:][::-1]]) and enriches each
      hit with [parse_resume_spacy] (name, email, phone, skills);
    - [src/Resume-Match.py], a Streamlit script re-run on every
      interaction: it scans the same folder keeping only non-empty texts,
      fits a [TfidfVectorizer(stop_words="english")] unless the pickle
      [resume_vectors4.pkl] exists (then it loads the old snapshot),
      repeats the job description [skill_weight + experience_weight]
      times, keeps the indices of positive similarity in descending
      order, the first five of them, and writes them to
      [similarity_data4.pkl];
    - [src/pages/Admin.py] reads [similarity_data4.pkl] and shows its
      first ten (table, bar chart) and first five (pie chart) rows.

    Files, in dependency order (each opens with what it holds):
    - [Spec2Rocq] (this file): the shared prelude: the [rm_scope]
      notations, the [rm] hint database, the [inv]/[bool_to_prop]
      tactics, Python exceptions as values ([py_exn], [result], [bind]
      with the notation [x <- c ;; k], [fold_result] for a loop whose
      body may raise) and the generic lemmas on lists.
    - [Text]: the Python string operations the code calls ([str.strip],
      [str.lower], [str.endswith], [s * k]) and scikit-learn's default
      analyzer ([sk_analyze]: lower-casing, the token pattern
      [(?u)\b\w\w+\b], a stop-word filter whose list is a parameter);
      [boosted_job] of [Resume-Match.py] line 90.  Theorems: the tokens
      of the boosted description are [skill_weight + experience_weight]
      copies of those of the description; [strip] is empty exactly on
      white space.
    - [Matcher]: the ranking stage ([main.py] line 108,
      [Resume-Match.py] lines 94-97), generic over a score type
      ([ScoreOrder]: a strict weak order with a zero; instances on [Q]
      and [R]) and over numpy's [argsort], an interface ([ArgSort] and
      [ArgSortLaws]: a permutation in ascending score order, ties in any
      order, since numpy's default sort is not stable).  Theorems for
      [top_indices_main] and [top_matches]: length, distinct valid
      indices, descending order, optimality, positivity, the empty
      result.  A stable insertion sort is one lawful [argsort], used to
      evaluate concrete rows.
    - [Extract]: [extract_text] of both front ends over a [FileSystem]
      record whose readers (PyPDF2 pages, docx2txt, UTF-8 read) return
      a text or raise, and the two corpus scans as [fold_result] loops
      ([load_resumes_main], [scan_folder]).  Theorems: index alignment
      of names and texts, the abort of [main.py] on one unreadable file,
      success when every file reads, [Resume-Match.py] keeping exactly
      the files of non-empty text.
    - [Pipeline]: the handlers.  scikit-learn's vectorizer is the
      interface [Vectorizer] with [VectorizerLaws] (one similarity per
      corpus text, [fit] raising on an empty corpus).  [main.py]:
      [main_startup] and the [POST /matcher] handler [matcher], with
      [parse_resume_spacy] a parameter.  [Resume-Match.py]: one run of
      the script, [rm_run], over the [Disk] holding the two pickles,
      and [rm_reach], the disks a sequence of runs can leave.
      [pages/Admin.py]: [admin_view].  Theorems: the blank-input prompt;
      end-to-end alignment of the rows of [main.matcher]; a run ignores
      the folder once the model is pickled; the first run crashes on an
      empty corpus; the disk invariant, by induction on [rm_reach]; the
      Admin page never shows more than five rows.

    Concrete runs evaluate with [vm_compute] on scores in [Q] (the
    insertion-sort [argsort], and a term-overlap stand-in vectorizer
    meeting [VectorizerLaws]); there is no fuel anywhere: every loop is
    structural recursion over a list.

    Not modelled: scikit-learn's [TfidfVectorizer] and
    [cosine_similarity] themselves (library code: the handlers are
    proved for every vectorizer meeting the interface);
    [parse_resume_spacy] (spaCy's entity model; the field regexes and
    skill scan are not yet modelled, the handler takes the function as
    a parameter); the English stop-word list (library data);
    HTML rendering, Streamlit widgets and charts, the PDF and DOCX
    parsers (libraries whose results enter the model as the readers of
    [FileSystem]); the Flask route [/] and [app.run]. *)

From Stdlib Require Import List Arith Lia Bool Sorting.Sorted Sorting.Permutation.
Import ListNotations.

Declare Scope rm_scope.
Delimit Scope rm_scope with rm.
Open Scope rm_scope.

Create HintDb rm.

(** Inversion that cleans up after itself. *)
Ltac inv H := inversion H; subst; clear H.

(** Turn the boolean tests of the code into propositions. *)
Ltac bool_to_prop :=
  repeat match goal with
  | H : (_ && _)%bool = true |- _ => apply andb_true_iff in H as [? ?]
  | H : (_ || _)%bool = false |- _ => apply orb_false_iff in H as [? ?]
  | H : negb _ = true |- _ => apply negb_true_iff in H
  | H : negb _ = false |- _ => apply negb_false_iff in H
  | H : Nat.leb _ _ = true |- _ => apply Nat.leb_le in H
  | H : Nat.leb _ _ = false |- _ => apply Nat.leb_gt in H
  | H : Nat.eqb _ _ = true |- _ => apply Nat.eqb_eq in H
  end.

(** ** Python slicing on lists *)

(** [l[-k:]]: the last [k] elements, the whole list when it is shorter. *)
Definition py_last {A} (k : nat) (l : list A) : list A := skipn (length l - k) l.

(** [l[:k]]: the first [k] elements. *)
Notation "l '.[:' k ']'" := (firstn k l) (at level 1, format "l .[: k ]") : rm_scope.

Lemma length_py_last {A} (k : nat) (l : list A) :
  length (py_last k l) = Nat.min k (length l).
Proof. unfold py_last. rewrite length_skipn. lia. Qed.

Lemma py_last_incl {A} (k : nat) (l : list A) : incl (py_last k l) l.
Proof.
  unfold py_last. intros x Hx. rewrite <- (firstn_skipn (length l - k) l).
  apply in_or_app. now right.
Qed.

Lemma firstn_incl {A} (k : nat) (l : list A) : incl (firstn k l) l.
Proof.
  intros x Hx. rewrite <- (firstn_skipn k l). apply in_or_app. now left.
Qed.

#[export] Hint Resolve py_last_incl firstn_incl : rm.

(** Sortedness and its strong form survive taking a prefix or a suffix. *)
Lemma StronglySorted_firstn {A} (R : A -> A -> Prop) k l :
  StronglySorted R l -> StronglySorted R (firstn k l).
Proof.
  revert l; induction k as [|k IH]; intros [|x l] H; simpl; [constructor..|].
  inv H. constructor; [now apply IH|].
  eapply incl_Forall; [apply firstn_incl|assumption].
Qed.

Lemma StronglySorted_skipn {A} (R : A -> A -> Prop) k l :
  StronglySorted R l -> StronglySorted R (skipn k l).
Proof.
  revert l; induction k as [|k IH]; intros [|x l] H; simpl; auto.
  inv H. now apply IH.
Qed.

#[export] Hint Resolve StronglySorted_firstn StronglySorted_skipn : rm.

Section StronglySortedFacts.
Context {A : Type} (R : A -> A -> Prop).

Lemma StronglySorted_app (l1 l2 : list A) :
  StronglySorted R l1 -> StronglySorted R l2 ->
  (forall x y, In x l1 -> In y l2 -> R x y) -> StronglySorted R (l1 ++ l2).
Proof.
  induction 1 as [|a l1 _ IH HF]; intros H2 Hx; simpl; auto.
  constructor.
  - apply IH; auto. intros x y Hx1 Hy. apply Hx; simpl; auto.
  - apply Forall_app. split; auto.
    apply Forall_forall. intros y Hy. apply Hx; simpl; auto.
Qed.

Lemma StronglySorted_app_inv (l1 l2 : list A) x y :
  StronglySorted R (l1 ++ l2) -> In x l1 -> In y l2 -> R x y.
Proof.
  induction l1 as [|a l1 IH]; simpl; intros H Hx Hy; [contradiction|].
  inv H. destruct Hx as [<-|Hx]; auto.
  eapply Forall_forall; eauto. apply in_or_app; auto.
Qed.

Lemma StronglySorted_filter (f : A -> bool) (l : list A) :
  StronglySorted R l -> StronglySorted R (filter f l).
Proof.
  induction 1 as [|a l _ IH HF]; simpl; [constructor|].
  destruct (f a); auto. constructor; auto.
  apply Forall_forall. intros y Hy. apply filter_In in Hy as [Hy _].
  eapply Forall_forall; eauto.
Qed.

Lemma StronglySorted_weaken (R' : A -> A -> Prop) (l : list A) :
  (forall x y, R x y -> R' x y) -> StronglySorted R l -> StronglySorted R' l.
Proof.
  intros Himp. induction 1; constructor; auto.
  eapply Forall_impl; [|eassumption]. auto.
Qed.
End StronglySortedFacts.

Lemma StronglySorted_rev {A} (R : A -> A -> Prop) (l : list A) :
  StronglySorted R l -> StronglySorted (fun x y => R y x) (rev l).
Proof.
  induction 1 as [|a l _ IH HF]; simpl; [constructor|].
  apply StronglySorted_app; auto.
  - repeat constructor.
  - intros x y Hx [<-|[]]. apply in_rev in Hx. eapply Forall_forall; eauto.
Qed.


#[export] Hint Resolve StronglySorted_rev StronglySorted_filter : rm.

(** Membership in [seq 0 n]. *)
Lemma in_seq0 (n i : nat) : In i (seq 0 n) <-> i < n.
Proof. rewrite in_seq. lia. Qed.

Lemma Permutation_filter_rm {A} (f : A -> bool) (l l' : list A) :
  Permutation.Permutation l l' -> Permutation.Permutation (filter f l) (filter f l').
Proof.
  induction 1; simpl; try constructor; auto.
  - destruct (f x); auto.
  - destruct (f x), (f y); auto using Permutation.perm_swap.
  - eapply Permutation.Permutation_trans; eauto.
Qed.

Lemma NoDup_firstn_rm {A} (k : nat) (l : list A) : NoDup l -> NoDup (firstn k l).
Proof.
  rewrite <- (firstn_skipn k l) at 1. apply NoDup_app_remove_r.
Qed.

Lemma NoDup_skipn_rm {A} (k : nat) (l : list A) : NoDup l -> NoDup (skipn k l).
Proof.
  rewrite <- (firstn_skipn k l) at 1. apply NoDup_app_remove_l.
Qed.

(** An element of [l] outside its suffix [skipn k l] is in its prefix. *)
Lemma in_firstn_of_not_skipn {A} (k : nat) (l : list A) x :
  In x l -> ~ In x (skipn k l) -> In x (firstn k l).
Proof.
  rewrite <- (firstn_skipn k l) at 1. intros Hx Hn.
  apply in_app_or in Hx as [|]; tauto.
Qed.

#[export] Hint Resolve NoDup_firstn_rm NoDup_skipn_rm NoDup_rev NoDup_filter : rm.

Lemma skipn_incl {A} (k : nat) (l : list A) : incl (skipn k l) l.
Proof.
  intros x Hx. rewrite <- (firstn_skipn k l). apply in_or_app. now right.
Qed.

#[export] Hint Resolve skipn_incl : rm.

(** ** Python exceptions as values *)

(** The exceptions the modelled code can raise (or let escape from the
    libraries it calls). *)
Inductive py_exn :=
| OSError            (* open, os.listdir on a missing or unreadable path *)
| UnicodeDecodeError (* reading a .txt file that is not UTF-8 *)
| PdfReadError       (* PyPDF2 on a corrupt PDF *)
| BadZipFile         (* docx2txt on a corrupt .docx *)
| EmptyVocabulary.   (* ValueError("empty vocabulary; ...") of scikit-learn *)

(** A computation that returns a value or raises. *)
Inductive result (A : Type) : Type :=
| Ok (a : A)
| Raise (e : py_exn).
Arguments Ok {A} a.
Arguments Raise {A} e.

Definition bind {A B} (r : result A) (f : A -> result B) : result B :=
  match r with Ok a => f a | Raise e => Raise e end.

Notation "x <- c1 ;; c2" := (bind c1 (fun x => c2))
  (at level 61, c1 at next level, right associativity) : rm_scope.

(** A [for] loop whose body may raise: the first exception ends it. *)
Fixpoint fold_result {A B} (body : A -> B -> result A) (l : list B) (acc : A) : result A :=
  match l with
  | [] => Ok acc
  | x :: l' => bind (body acc x) (fold_result body l')
  end.

Lemma bind_Ok_iff {A B} (r : result A) (f : A -> result B) b :
  bind r f = Ok b <-> exists a, r = Ok a /\ f a = Ok b.
Proof.
  destruct r as [a|e]; simpl; split.
  - eauto.
  - intros (a' & [= ->] & H). exact H.
  - discriminate.
  - intros (a' & C & _). discriminate.
Qed.

Lemma fold_result_cons_Ok {A B} (body : A -> B -> result A) x l acc r :
  fold_result body (x :: l) acc = Ok r <->
  exists acc', body acc x = Ok acc' /\ fold_result body l acc' = Ok r.
Proof. apply bind_Ok_iff. Qed.

Lemma Forall2_in_left {A B} (R : A -> B -> Prop) l1 l2 x :
  Forall2 R l1 l2 -> In x l1 -> exists y, In y l2 /\ R x y.
Proof.
  induction 1 as [|a b l1 l2 Hab _ IH]; simpl; [contradiction|].
  intros [<-|Hx]; [eauto|]. destruct (IH Hx) as (y & Hy & Hr). eauto.
Qed.

Lemma Forall2_nth_error {A B} (R : A -> B -> Prop) l1 l2 i x :
  Forall2 R l1 l2 -> nth_error l1 i = Some x -> exists y, nth_error l2 i = Some y /\ R x y.
Proof.
  intros HF. revert i. induction HF as [|a b l1 l2 Hab _ IH]; intros [|i] Hx; simpl in *;
    try discriminate; [injection Hx as <-; eauto|eauto].
Qed.
