(* ===== verification/Text.v ===== *)
(** * Python string primitives and scikit-learn's text analyzer

    The string operations the two front ends call, over Rocq's [string]
    (ASCII characters; non-ASCII input is outside the model):
    - [py_isspace], [py_strip]: [str.strip()], used by the validation of
      the job description ([main.py] line 102, [Resume-Match.py] line 87);
    - [py_lower]: [str.lower()] on ASCII;
    - [py_endswith]: [str.endswith], the format dispatch of [extract_text];
    - [py_str_mul]: [s * k], the boosting of [Resume-Match.py] line 90.

    and the default analyzer of scikit-learn's [TfidfVectorizer]
    ([sk_analyze]): lower-case, find the tokens of [(?u)\b\w\w+\b]
    (maximal runs of word characters of length at least two), drop the
    stop words. *)

From Stdlib Require Import List Arith Lia Bool String Ascii.
From S2P Require Import Spec2Rocq.
Import ListNotations.
Local Open Scope nat_scope.

(** ** Character classes *)

(** [c.isspace()] on an ASCII character: tab to carriage return, the
    separators 0x1c-0x1f and space. *)
Definition py_isspace (c : ascii) : bool :=
  let n := nat_of_ascii c in ((9 <=? n) && (n <=? 13)) || ((28 <=? n) && (n <=? 32)).

(** The regex class [\w] on ASCII: letters, digits and underscore. *)
Definition is_word_char (c : ascii) : bool :=
  let n := nat_of_ascii c in
  ((48 <=? n) && (n <=? 57)) || ((65 <=? n) && (n <=? 90)) ||
  ((97 <=? n) && (n <=? 122)) || (n =? 95).

(** [c.lower()] on ASCII. *)
Definition py_lower_char (c : ascii) : ascii :=
  let n := nat_of_ascii c in
  if (65 <=? n) && (n <=? 90) then ascii_of_nat (n + 32) else c.

(** ** String operations *)

Fixpoint py_lower (s : string) : string :=
  match s with
  | EmptyString => EmptyString
  | String c s' => String (py_lower_char c) (py_lower s')
  end.

Fixpoint py_lstrip (s : string) : string :=
  match s with
  | EmptyString => EmptyString
  | String c s' => if py_isspace c then py_lstrip s' else s
  end.

Fixpoint py_rstrip (s : string) : string :=
  match s with
  | EmptyString => EmptyString
  | String c s' =>
      let r := py_rstrip s' in
      if py_isspace c && String.eqb r EmptyString then EmptyString else String c r
  end.

(** [s.strip()] *)
Definition py_strip (s : string) : string := py_rstrip (py_lstrip s).

(** [s.endswith(suffix)] *)
Definition py_endswith (s suffix : string) : bool :=
  let n := String.length s in
  let m := String.length suffix in
  (m <=? n) && String.eqb (substring (n - m) m s) suffix.

(** [s * k] for a non-negative integer [k]. *)
Fixpoint py_str_mul (s : string) (k : nat) : string :=
  match k with
  | 0 => EmptyString
  | S k' => String.append s (py_str_mul s k')
  end.

(** ** scikit-learn's word analyzer *)

(** Close the current run of word characters: a run of at least two
    characters is a token of [\b\w\w+\b]. *)
Definition flush_run (cur : list ascii) (rest : list (list ascii)) : list (list ascii) :=
  if 2 <=? List.length cur then cur :: rest else rest.

(** The matches of [re.findall(r"(?u)\b\w\w+\b", doc)], left to right:
    [cur] is the run of word characters read so far. *)
Fixpoint word_runs (cur : list ascii) (cs : list ascii) : list (list ascii) :=
  match cs with
  | [] => flush_run cur []
  | c :: cs' =>
      if is_word_char c then word_runs (List.app cur [c]) cs'
      else flush_run cur (word_runs [] cs')
  end.

(** The default tokenizer of [TfidfVectorizer]. *)
Definition sk_tokenize (doc : string) : list string :=
  map string_of_list_ascii (word_runs [] (list_ascii_of_string doc)).

(** [stop_words]: [None] ([main.py] line 90) or a list of words
    ([stop_words="english"], [Resume-Match.py] line 63). *)
Definition is_stop (stop : list string) (t : string) : bool :=
  existsb (String.eqb t) stop.

(** The analyzer of [TfidfVectorizer]: [lowercase=True], the token
    pattern, then the stop-word filter. *)
Definition sk_analyze (stop : list string) (doc : string) : list string :=
  filter (fun t => negb (is_stop stop t)) (sk_tokenize (py_lower doc)).

(** [Resume-Match.py] line 90:
    [(job_description + " ") * (skill_weight + experience_weight)]. *)
Definition boosted_job (jd : string) (skill_weight experience_weight : nat) : string :=
  py_str_mul (String.append jd " ") (skill_weight + experience_weight).

(** ** The analyzer on concatenations *)

Lemma list_ascii_of_string_append (s t : string) :
  list_ascii_of_string (String.append s t) = List.app (list_ascii_of_string s) (list_ascii_of_string t).
Proof. induction s as [|c s IH]; simpl; [reflexivity|now rewrite IH]. Qed.

Lemma py_lower_append (s t : string) :
  py_lower (String.append s t) = String.append (py_lower s) (py_lower t).
Proof. induction s as [|c s IH]; simpl; [reflexivity|now rewrite IH]. Qed.

Lemma flush_run_app cur (a b : list (list ascii)) :
  flush_run cur (List.app a b) = List.app (flush_run cur a) b.
Proof. unfold flush_run. now destruct (2 <=? List.length cur). Qed.

(** A character outside [\w] ends every run: the matches of a text cut
    at such a character are those of its two sides. *)
Lemma word_runs_split cur cs c ds :
  is_word_char c = false ->
  word_runs cur (List.app cs (c :: ds)) = List.app (word_runs cur cs) (word_runs [] ds).
Proof.
  intros Hc. revert cur; induction cs as [|d cs IH]; intros cur; simpl.
  - rewrite Hc. apply (flush_run_app cur []).
  - destruct (is_word_char d); [apply IH|]. rewrite IH. apply flush_run_app.
Qed.

Lemma sk_analyze_space_append (stop : list string) (s t : string) :
  sk_analyze stop (String.append s (String " "%char t)) =
  List.app (sk_analyze stop s) (sk_analyze stop t).
Proof.
  unfold sk_analyze, sk_tokenize.
  rewrite py_lower_append, list_ascii_of_string_append. simpl.
  rewrite word_runs_split by reflexivity.
  now rewrite map_app, filter_app.
Qed.

Lemma sk_analyze_empty (stop : list string) : sk_analyze stop EmptyString = [].
Proof. reflexivity. Qed.


Lemma string_append_assoc (s t u : string) :
  String.append (String.append s t) u = String.append s (String.append t u).
Proof. induction s as [|c s IH]; simpl; [reflexivity|now rewrite IH]. Qed.

(** C4: the boosting of [Resume-Match.py] line 90 repeats the analysed
    job description: for any stop-word list, the tokens of
    [(job_description + " ") * (skill_weight + experience_weight)] are
    [skill_weight + experience_weight] consecutive copies of the tokens
    of [job_description], no token merged across the joins and none
    added; term counts are multiplied by the repetition count and
    nothing else changes. *)
Theorem boosted_job_tokens (stop : list string) (jd : string) (skill_weight experience_weight : nat) :
  sk_analyze stop (boosted_job jd skill_weight experience_weight) =
  List.concat (List.repeat (sk_analyze stop jd) (skill_weight + experience_weight)).
Proof.
  unfold boosted_job. induction (skill_weight + experience_weight) as [|k IH]; [reflexivity|].
  simpl py_str_mul. rewrite string_append_assoc. simpl String.append at 2.
  rewrite sk_analyze_space_append, IH. reflexivity.
Qed.

(** [s.strip()] is empty exactly when every character of [s] is white
    space: the condition under which both front ends reject the job
    description. *)
Lemma py_strip_empty_iff (s : string) :
  py_strip s = EmptyString <-> forallb py_isspace (list_ascii_of_string s) = true.
Proof.
  unfold py_strip. induction s as [|c s IH]; simpl; [tauto|].
  destruct (py_isspace c) eqn:Hc; simpl; [exact IH|].
  rewrite Hc. simpl. split; discriminate.
Qed.
