(* ===== verification/Matcher.v ===== *)
(** * The ranking stage of both front ends

    [main.py] line 108 and [Resume-Match.py] lines 94-97 turn the row of
    cosine similarities into a ranked list of corpus indices:
    [similarities.argsort()] lists the indices by ascending score, and
    - [main.matcher] keeps [argsort()[-5:][::-1]], the five best indices
      in descending order, whatever their score ([top_indices_main]);
    - [Resume-Match.py] reverses the whole order, keeps the indices of
      positive score and then the first five ([top_matches]).

    The stage is generic over the score type through the class
    [ScoreOrder]: a strict weak order (numpy's [<] on non-NaN float64)
    with a zero.  [Q] gives an executable instance, [R] the instance the
    cosine similarities of the pipeline live in.

    numpy's [argsort] (default kind ["quicksort"], an introsort) is not
    stable: on rows of 18 or more entries its partition reorders equal
    scores, and vectorised builds may do so on shorter rows.  The code
    relies on nothing more than what numpy documents, so [argsort] is an
    interface: the operation [ArgSort] and its laws [ArgSortLaws], a
    permutation of the indices in ascending (non-strict) score order,
    equal scores in any order.  Every theorem about the two selections
    is proved against these laws, so it holds whatever order numpy gives
    to ties.  The stable insertion sort [insertion_argsort] is one lawful
    instance, used to evaluate concrete rows. *)

From Stdlib Require Import List Arith Lia Bool Sorted Permutation QArith Reals Lra.
From S2P Require Import Spec2Rocq.
Import ListNotations.
Local Open Scope nat_scope.

(** ** The score interface *)

Class ScoreOrder (Sc : Type) := {
  s_ltb : Sc -> Sc -> bool;
  s_zero : Sc;
  s_ltb_asym : forall a b, s_ltb a b = true -> s_ltb b a = false;
  s_ltb_negtrans : forall a b c,
    s_ltb a c = true -> s_ltb a b = true \/ s_ltb b c = true
}.

(** Python's [x > 0] on a score. *)
Definition s_pos {Sc} `{ScoreOrder Sc} (x : Sc) : bool := s_ltb s_zero x.

(** numpy's [<] on float64 values, modelled on the rationals ... *)
Definition Q_ltb (a b : Q) : bool := negb (Qle_bool b a).

#[export] Program Instance ScoreOrder_Q : ScoreOrder Q := {|
  s_ltb := Q_ltb; s_zero := 0%Q |}.
Next Obligation.
  unfold Q_ltb in *. apply negb_true_iff in H. apply negb_false_iff.
  apply Qle_bool_iff. destruct (Qle_bool b a) eqn:E; [discriminate|].
  assert (~ (b <= a)%Q) by (intro C; apply Qle_bool_iff in C; congruence).
  apply Qlt_le_weak, Qnot_le_lt; assumption.
Qed.
Next Obligation.
  unfold Q_ltb in *. apply negb_true_iff in H.
  assert (Hca : ~ (c <= a)%Q) by (intro C; apply Qle_bool_iff in C; congruence).
  destruct (Qle_bool b a) eqn:E1; destruct (Qle_bool c b) eqn:E2; auto.
  apply Qle_bool_iff in E1, E2. exfalso. apply Hca. eapply Qle_trans; eauto.
Qed.

(** ... and on the reals. *)
Definition R_ltb (a b : R) : bool := if Rlt_dec a b then true else false.

#[export] Program Instance ScoreOrder_R : ScoreOrder R := {|
  s_ltb := R_ltb; s_zero := 0%R |}.
Next Obligation.
  unfold R_ltb in *. destruct (Rlt_dec a b); [|discriminate].
  destruct (Rlt_dec b a); [lra|reflexivity].
Qed.
Next Obligation.
  unfold R_ltb in *. destruct (Rlt_dec a c); [|discriminate].
  destruct (Rlt_dec a b); [auto|]. destruct (Rlt_dec b c); [auto|lra].
Qed.

(** ** The ranking, for any score type *)

Section Ranking.
Context {Sc : Type} `{ScoreOrder Sc}.

(** [similarities[i]] *)
Definition sim_at (sims : list Sc) (i : nat) : Sc := nth i sims s_zero.

(** [similarities.argsort()], the operation numpy provides. *)
Class ArgSort := argsort : list Sc -> list nat.

(** What numpy guarantees of it: every index exactly once, and no index
    listed after one of strictly higher score.  Equal scores come in an
    unspecified order. *)
Class ArgSortLaws `{ArgSort} : Prop := {
  argsort_perm : forall sims, Permutation (argsort sims) (seq 0 (length sims));
  argsort_sorted : forall sims,
    StronglySorted (fun i j => s_ltb (sim_at sims j) (sim_at sims i) = false) (argsort sims)
}.

Context `{ArgSort}.

(** [main.py] line 108: [similarities.argsort()[-5:][::-1]]. *)
Definition top_indices_main (sims : list Sc) : list nat :=
  rev (py_last 5 (argsort sims)).

(** [Resume-Match.py] lines 94 and 97:
    [top_indices = similarities.argsort()[::-1]] and
    [[(i, round(similarities[i] * 100, 2)) for i in top_indices
      if similarities[i] > 0][:5]]; [fmt] is the displayed score. *)
Definition top_matches {T} (fmt : Sc -> T) (sims : list Sc) : list (nat * T) :=
  (map (fun i => (i, fmt (sim_at sims i)))
       (filter (fun i => s_pos (sim_at sims i)) (rev (argsort sims)))).[:5].

End Ranking.

Arguments ArgSort : clear implicits.
Arguments ArgSortLaws _ {_ _}.

(** ** A lawful argsort: the stable insertion sort *)

Section Insertion.
Context {Sc : Type} `{ScoreOrder Sc}.

(** One insertion step: index [i] goes after every index whose score is
    not greater than its own. *)
Fixpoint insert_idx (key : nat -> Sc) (i : nat) (l : list nat) : list nat :=
  match l with
  | [] => [i]
  | j :: l' => if s_ltb (key i) (key j) then i :: j :: l' else j :: insert_idx key i l'
  end.

Definition insertion_argsort (sims : list Sc) : list nat :=
  fold_left (fun acc i => insert_idx (sim_at sims) i acc) (seq 0 (length sims)) [].

(** The order [insertion_argsort] produces: by ascending score, ties by
    ascending index. *)
Definition rank_before (key : nat -> Sc) (i j : nat) : Prop :=
  s_ltb (key i) (key j) = true \/ (s_ltb (key j) (key i) = false /\ i < j).

End Insertion.

#[export] Instance ArgSort_insertion {Sc} `{ScoreOrder Sc} : ArgSort Sc := insertion_argsort.

(** ** Facts about the ranking *)

Lemma R_ltb_true (a b : R) : R_ltb a b = true <-> (a < b)%R.
Proof. unfold R_ltb. destruct (Rlt_dec a b); split; intros; auto; discriminate. Qed.

Section InsertionFacts.
Context {Sc : Type} `{ScoreOrder Sc}.

Lemma s_ltb_irrefl a : s_ltb a a = false.
Proof.
  destruct (s_ltb a a) eqn:E; auto. pose proof (s_ltb_asym _ _ E). congruence.
Qed.

Lemma s_nlt_trans a b c :
  s_ltb b a = false -> s_ltb c b = false -> s_ltb c a = false.
Proof.
  intros Hba Hcb. destruct (s_ltb c a) eqn:E; auto.
  destruct (s_ltb_negtrans c b a E); congruence.
Qed.

Lemma rank_before_trans key : Transitive (rank_before key).
Proof.
  unfold rank_before.
  intros i j k [Hij|[Hji Hij]] [Hjk|[Hkj Hjk]].
  - left. destruct (s_ltb_negtrans _ (key k) _ Hij) as [|C]; auto.
    destruct (s_ltb_negtrans _ (key i) _ Hjk) as [C'|]; auto.
    rewrite (s_ltb_asym _ _ Hij) in C'. discriminate.
  - left. destruct (s_ltb_negtrans _ (key k) _ Hij); congruence.
  - left. destruct (s_ltb_negtrans _ (key i) _ Hjk); congruence.
  - right. split; [eapply s_nlt_trans; eauto|lia].
Qed.

(** A lower score, or an equal one and a smaller index, ranks before. *)
Lemma rank_before_nlt key i j :
  s_ltb (key i) (key j) = false -> j < i -> rank_before key j i.
Proof.
  unfold rank_before. intros Hij Hlt.
  destruct (s_ltb (key j) (key i)) eqn:E; auto.
Qed.

(** What [rank_before] says of the scores alone. *)
Lemma rank_before_nlt_inv key i j :
  rank_before key i j -> s_ltb (key j) (key i) = false.
Proof. intros [Hij|[Hji _]]; auto using s_ltb_asym. Qed.

Lemma insert_idx_perm key i l : Permutation (insert_idx key i l) (i :: l).
Proof.
  induction l as [|j l IH]; simpl; auto.
  destruct (s_ltb (key i) (key j)); auto.
  rewrite IH. apply perm_swap.
Qed.

Lemma insert_idx_sorted key i l :
  Sorted (rank_before key) l -> Forall (fun j => j < i) l ->
  Sorted (rank_before key) (insert_idx key i l).
Proof.
  induction l as [|j l IH]; simpl; intros Hs Hf; [repeat constructor|].
  inv Hf. apply Sorted_inv in Hs as [Hs Hhd].
  destruct (s_ltb (key i) (key j)) eqn:Eij.
  - constructor; [constructor; auto|]. constructor. now left.
  - constructor; [now apply IH|].
    destruct l as [|k l]; simpl.
    + constructor. now apply rank_before_nlt.
    + apply HdRel_inv in Hhd. destruct (s_ltb (key i) (key k)); constructor; auto.
      now apply rank_before_nlt.
Qed.

Lemma argsort_fold key start len acc :
  Permutation acc (seq 0 start) -> Sorted (rank_before key) acc ->
  let r := fold_left (fun acc i => insert_idx key i acc) (seq start len) acc in
  Permutation r (seq 0 (start + len)) /\ Sorted (rank_before key) r.
Proof.
  revert start acc; induction len as [|len IH]; intros start acc Hp Hs; simpl.
  - rewrite Nat.add_0_r. auto.
  - replace (start + S len) with (S start + len) by lia. apply IH.
    + rewrite insert_idx_perm, seq_S, Hp. simpl. apply Permutation_cons_append.
    + apply insert_idx_sorted; auto.
      apply Forall_forall. intros j Hj. rewrite Hp, in_seq0 in Hj. exact Hj.
Qed.

Lemma insertion_argsort_perm (sims : list Sc) :
  Permutation (insertion_argsort sims) (seq 0 (length sims)).
Proof. apply (argsort_fold (sim_at sims) 0 (length sims) []); auto. Qed.

Lemma insertion_argsort_ssorted (sims : list Sc) :
  StronglySorted (rank_before (sim_at sims)) (insertion_argsort sims).
Proof.
  apply Sorted_StronglySorted; [apply rank_before_trans|].
  apply (argsort_fold (sim_at sims) 0 (length sims) []); auto.
Qed.
End InsertionFacts.

#[export] Instance ArgSortLaws_insertion {Sc} `{ScoreOrder Sc} : ArgSortLaws Sc.
Proof.
  split; intros sims; [apply insertion_argsort_perm|].
  eapply StronglySorted_weaken; [|apply insertion_argsort_ssorted].
  intros i j. apply rank_before_nlt_inv.
Qed.

Section RankingFacts.
Context {Sc : Type} `{ScoreOrder Sc} `{ArgSort Sc} `{!ArgSortLaws Sc}.

(** The weak order numpy's argsort leaves its output in. *)
Local Abbreviation below sims := (fun i j => s_ltb (sim_at sims j) (sim_at sims i) = false).

Lemma in_argsort (sims : list Sc) i : In i (argsort sims) <-> i < length sims.
Proof.
  rewrite <- in_seq0. split; apply Permutation_in; [|symmetry]; apply argsort_perm.
Qed.

Lemma NoDup_argsort (sims : list Sc) : NoDup (argsort sims).
Proof.
  eapply Permutation_NoDup; [symmetry; apply argsort_perm|apply seq_NoDup].
Qed.

(** [argsort()[::-1]] lists the indices by non-increasing score. *)
Lemma rev_argsort_sorted (sims : list Sc) :
  StronglySorted (fun i j => s_ltb (sim_at sims i) (sim_at sims j) = false) (rev (argsort sims)).
Proof. apply (StronglySorted_rev (below sims)), argsort_sorted. Qed.

Lemma map_fst_top_matches {T} (fmt : Sc -> T) (sims : list Sc) :
  map fst (top_matches fmt sims) =
  (filter (fun i => s_pos (sim_at sims i)) (rev (argsort sims))).[:5].
Proof.
  unfold top_matches. rewrite firstn_map, map_map. apply map_id.
Qed.

Lemma in_positive (sims : list Sc) i :
  In i (filter (fun i => s_pos (sim_at sims i)) (rev (argsort sims))) <->
  i < length sims /\ s_pos (sim_at sims i) = true.
Proof. rewrite filter_In, <- in_rev, in_argsort. reflexivity. Qed.

Lemma top_indices_main_length (sims : list Sc) :
  List.length (top_indices_main sims) = Nat.min 5 (List.length sims).
Proof.
  unfold top_indices_main, py_last.
  rewrite ?length_rev, length_skipn, (Permutation_length (argsort_perm sims)), length_seq. lia.
Qed.

Lemma top_indices_main_valid (sims : list Sc) :
  Forall (fun i => i < List.length sims) (top_indices_main sims).
Proof.
  apply Forall_forall. intros i Hi. unfold top_indices_main, py_last in Hi.
  rewrite <- ?in_rev in Hi. apply skipn_incl in Hi. now apply in_argsort.
Qed.

Lemma top_matches_fst_valid {T} (fmt : Sc -> T) (sims : list Sc) i v :
  In (i, v) (top_matches fmt sims) -> i < List.length sims /\ s_pos (sim_at sims i) = true.
Proof.
  intros Hin. apply (in_map fst) in Hin. rewrite map_fst_top_matches in Hin.
  apply firstn_incl, in_positive in Hin. exact Hin.
Qed.

Lemma top_matches_length_le {T} (fmt : Sc -> T) (sims : list Sc) :
  List.length (top_matches fmt sims) <= 5.
Proof. unfold top_matches. rewrite length_firstn. lia. Qed.

(** C1: [main.matcher] returns [min 5 n] distinct valid indices of the
    [n] resumes, in non-increasing score order, and no resume left out
    has a strictly higher score than one returned, whatever the scores
    (zero scores included) and whatever order numpy gives to ties. *)
Theorem top_indices_main_correct (sims : list Sc) :
  let top := top_indices_main sims in
  length top = Nat.min 5 (length sims) /\ NoDup top /\
  Forall (fun i => i < length sims) top /\
  StronglySorted (fun i j => s_ltb (sim_at sims i) (sim_at sims j) = false) top /\
  (forall i j, In i top -> j < length sims -> ~ In j top ->
     s_ltb (sim_at sims i) (sim_at sims j) = false).
Proof.
  cbv zeta. unfold top_indices_main, py_last.
  pose proof (argsort_perm sims) as Hp.
  pose proof (argsort_sorted sims) as Hs.
  set (m := length (argsort sims) - 5).
  repeat split.
  - apply top_indices_main_length.
  - auto using NoDup_rev, NoDup_skipn_rm, NoDup_argsort.
  - apply top_indices_main_valid.
  - apply (StronglySorted_rev (below sims)), StronglySorted_skipn, Hs.
  - intros i j Hi Hj Hn. rewrite <- in_rev in Hi, Hn.
    apply (StronglySorted_app_inv (below sims) (firstn m (argsort sims)) (skipn m (argsort sims)));
      auto; [rewrite firstn_skipn; exact Hs|].
    apply in_firstn_of_not_skipn; auto. now apply in_argsort.
Qed.

(** C2: [Resume-Match.py] returns the indices of positive score only,
    at most five of them (exactly [min 5 p] for [p] positive scores),
    distinct, in non-increasing score order, each paired with its
    displayed score, and no positive-score resume left out beats one
    returned, whatever order numpy gives to ties. *)
Theorem top_matches_correct {T} (fmt : Sc -> T) (sims : list Sc) :
  let r := map fst (top_matches fmt sims) in
  top_matches fmt sims = map (fun i => (i, fmt (sim_at sims i))) r /\
  length r = Nat.min 5 (length (filter (fun i => s_pos (sim_at sims i)) (seq 0 (length sims)))) /\
  NoDup r /\
  Forall (fun i => i < length sims /\ s_pos (sim_at sims i) = true) r /\
  StronglySorted (fun i j => s_ltb (sim_at sims i) (sim_at sims j) = false) r /\
  (forall i j, In i r -> j < length sims -> s_pos (sim_at sims j) = true -> ~ In j r ->
     s_ltb (sim_at sims i) (sim_at sims j) = false).
Proof.
  cbv zeta. rewrite map_fst_top_matches.
  set (F := filter (fun i => s_pos (sim_at sims i)) (rev (argsort sims))).
  assert (HsF : StronglySorted (fun i j => s_ltb (sim_at sims i) (sim_at sims j) = false) F)
    by (apply StronglySorted_filter, rev_argsort_sorted).
  repeat split.
  - unfold top_matches. rewrite firstn_map. reflexivity.
  - rewrite length_firstn. f_equal. apply Permutation_length, Permutation_filter_rm.
    rewrite <- argsort_perm. symmetry. apply Permutation_rev.
  - apply NoDup_firstn_rm, NoDup_filter, NoDup_rev, NoDup_argsort.
  - apply Forall_forall. intros i Hi. apply firstn_incl, in_positive in Hi. exact Hi.
  - apply StronglySorted_firstn, HsF.
  - intros i j Hi Hj Hpj Hn.
    apply (StronglySorted_app_inv (fun i j => s_ltb (sim_at sims i) (sim_at sims j) = false)
             (firstn 5 F) (skipn 5 F)); auto.
    + rewrite firstn_skipn. exact HsF.
    + destruct (in_dec Nat.eq_dec j (skipn 5 F)) as [|Hns]; auto.
      exfalso. apply Hn, in_firstn_of_not_skipn; auto. now apply in_positive.
Qed.

(** C3: when no similarity is positive (a job description sharing no
    term with any resume), [Resume-Match.py] returns no match at all,
    the distinct "no matches" state. *)
Theorem top_matches_none {T} (fmt : Sc -> T) (sims : list Sc) :
  (forall i, i < length sims -> s_pos (sim_at sims i) = false) ->
  top_matches fmt sims = [].
Proof.
  intros Hz. destruct (top_matches fmt sims) as [|[i v] r] eqn:E; auto.
  assert (Hi : In i (map fst (top_matches fmt sims))) by (rewrite E; now left).
  rewrite map_fst_top_matches in Hi. apply firstn_incl, in_positive in Hi as [Hi Hp].
  rewrite Hz in Hp by exact Hi. discriminate.
Qed.
End RankingFacts.

(** ** Concrete runs (numpy float64 scores as exact rationals, ties
    ordered by the insertion-sort instance) *)

Definition sample_row : list Q := [1#2; 0; 9#10; 1#2]%Q.

Example argsort_sample : argsort sample_row = [1; 0; 3; 2].
Proof. vm_compute. reflexivity. Qed.

(** The zero-score resume 1 is still returned by [main.matcher]. *)
Example top_indices_main_sample : top_indices_main sample_row = [2; 3; 0; 1].
Proof. vm_compute. reflexivity. Qed.

Example top_matches_sample :
  top_matches (fun q => q) sample_row = [(2, (9#10)%Q); (3, (1#2)%Q); (0, (1#2)%Q)].
Proof. vm_compute. reflexivity. Qed.

Lemma top_matches_none_witness :
  top_matches (fun q : Q => q) [0; 0; 0]%Q = [].
Proof. apply top_matches_none. intros i Hi. simpl in Hi.
  destruct i as [|[|[|i]]]; vm_compute; reflexivity || lia. Defined.

Lemma top_indices_main_correct_witness :
  length (top_indices_main sample_row) = Nat.min 5 (length sample_row) /\
  NoDup (top_indices_main sample_row).
Proof.
  destruct (top_indices_main_correct sample_row)
    as [Hl [Hn _]].
  split; assumption.
Defined.

Lemma top_matches_correct_witness :
  NoDup (map fst (top_matches (fun q : Q => q) sample_row)).
Proof.
  destruct (top_matches_correct (fun q : Q => q) sample_row)
    as [_ [_ [Hn _]]].
  exact Hn.
Defined.
