(* ===== verification/Extract.v ===== *)
(** * Document extraction and the two corpus builders

    [extract_text] of [main.py] (lines 55-78) and of [Resume-Match.py]
    (lines 16-29) dispatch on the extension of the path to PyPDF2,
    docx2txt or a UTF-8 read, and return [""] for any other file.  The
    libraries and the file system are the record [FileSystem]: each
    reader returns the text or raises ([result]).

    The corpus builders scan [input_data/] in [os.listdir] order:
    - [main.py] lines 81-88 ([load_resumes_main]) keeps every regular
      file, whatever its text, and lets the first exception escape (the
      Flask app then never starts);
    - [Resume-Match.py] lines 45-59 ([scan_folder]) keeps the regular
      files of non-empty text, with one in-memory buffer per text, and
      yields empty lists when the folder does not exist.

    Each loop is a [fold_result] over the listing with the loop body as
    a function of the accumulated lists. *)

From Stdlib Require Import List Arith Lia Bool String Ascii.
From S2P Require Import Spec2Rocq Text.
Import ListNotations.
Local Open Scope nat_scope.

(** The file system and the document libraries, as the code sees them. *)
Record FileSystem := {
  fs_exists : string -> bool;                (* os.path.exists *)
  fs_listdir : string -> result (list string); (* os.listdir *)
  fs_isfile : string -> bool;                (* os.path.isfile *)
  pdf_page_texts : string -> result (list string);
    (* [page.extract_text() for page in PyPDF2.PdfReader(open(path, 'rb')).pages] *)
  docx_process : string -> result string;    (* docx2txt.process *)
  read_utf8 : string -> result string        (* open(path, 'r', encoding='utf-8').read() *)
}.

Section Extraction.
Variable fs : FileSystem.

(** [DATASET_FOLDER] ([main.py] line 12) and [FOLDER] ([Resume-Match.py]
    line 12). *)
Definition dataset_folder : string := "input_data/".

(** [os.path.join(folder, name)] for a folder ending in a slash and a
    name returned by [os.listdir] (never absolute). *)
Definition os_path_join (folder name : string) : string := String.append folder name.

(** [text = ""; for page in reader.pages: text += page.extract_text()] *)
Definition concat_pages (pages : list string) : string :=
  fold_left (fun text page => String.append text page) pages EmptyString.

Definition extract_text_from_pdf (file_path : string) : result string :=
  pages <- pdf_page_texts fs file_path ;; Ok (concat_pages pages).

Definition extract_text_from_docx (file_path : string) : result string :=
  docx_process fs file_path.

Definition extract_text_from_txt (file_path : string) : result string :=
  read_utf8 fs file_path.

(** [main.extract_text] *)
Definition extract_text (file_path : string) : result string :=
  if py_endswith file_path ".pdf" then extract_text_from_pdf file_path
  else if py_endswith file_path ".docx" then extract_text_from_docx file_path
  else if py_endswith file_path ".txt" then extract_text_from_txt file_path
  else Ok EmptyString.

(** [Resume-Match.extract_text], the same dispatch written inline. *)
Definition extract_text_rm (file_path : string) : result string :=
  if py_endswith file_path ".pdf" then
    pages <- pdf_page_texts fs file_path ;; Ok (concat_pages pages)
  else if py_endswith file_path ".docx" then docx_process fs file_path
  else if py_endswith file_path ".txt" then read_utf8 fs file_path
  else Ok EmptyString.

(** The two module-level lists of [main.py] lines 81-82. *)
Record MainCorpus := {
  resume_filenames : list string;
  resume_texts : list string
}.

(** The body of the loop of [main.py] lines 84-88. *)
Definition load_resumes_body (acc : MainCorpus) (filename : string) : result MainCorpus :=
  let path := os_path_join dataset_folder filename in
  if fs_isfile fs path then
    text <- extract_text path ;;
    Ok {| resume_filenames := resume_filenames acc ++ [filename];
          resume_texts := resume_texts acc ++ [text] |}
  else Ok acc.

(** [main.py] lines 81-88. *)
Definition load_resumes_main : result MainCorpus :=
  names <- fs_listdir fs dataset_folder ;;
  fold_result load_resumes_body names {| resume_filenames := []; resume_texts := [] |}.

(** The three lists of [Resume-Match.py] line 45; a buffer is the
    [BytesIO] holding [text.encode("utf-8")], modelled by that text. *)
Record FolderCorpus := {
  folder_resumes : list string;
  folder_files : list string;
  folder_buffers : list string
}.

Definition empty_folder_corpus : FolderCorpus :=
  {| folder_resumes := []; folder_files := []; folder_buffers := [] |}.

(** [if text:] on a string. *)
Definition py_truthy (s : string) : bool := negb (String.eqb s EmptyString).

(** The body of the loop of [Resume-Match.py] lines 48-59. *)
Definition scan_folder_body (acc : FolderCorpus) (file : string) : result FolderCorpus :=
  let path := os_path_join dataset_folder file in
  if fs_isfile fs path then
    text <- extract_text_rm path ;;
    if py_truthy text then
      Ok {| folder_resumes := folder_resumes acc ++ [text];
            folder_files := folder_files acc ++ [file];
            folder_buffers := folder_buffers acc ++ [text] |}
    else Ok acc
  else Ok acc.

(** [Resume-Match.py] lines 45-59. *)
Definition scan_folder : result FolderCorpus :=
  if fs_exists fs dataset_folder then
    names <- fs_listdir fs dataset_folder ;;
    fold_result scan_folder_body names empty_folder_corpus
  else Ok empty_folder_corpus.

End Extraction.

(** ** Facts about extraction and the corpus builders *)

Section ExtractionFacts.
Variable fs : FileSystem.

(** The two front ends extract the same text from every path. *)
Lemma extract_text_rm_eq (file_path : string) :
  extract_text_rm fs file_path = extract_text fs file_path.
Proof. reflexivity. Qed.

Let regular (f : string) : bool := fs_isfile fs (os_path_join dataset_folder f).
Let extracts (f t : string) : Prop := extract_text fs (os_path_join dataset_folder f) = Ok t.

(** Which listed files [Resume-Match.py] keeps: regular, readable, and
    of non-empty text. *)
Definition kept_rm (f : string) : bool :=
  regular f &&
  match extract_text_rm fs (os_path_join dataset_folder f) with
  | Ok t => py_truthy t
  | Raise _ => false
  end.

Lemma load_loop_Ok names acc r :
  fold_result (load_resumes_body fs) names acc = Ok r ->
  resume_filenames r = resume_filenames acc ++ filter regular names /\
  exists ts, resume_texts r = resume_texts acc ++ ts /\
             Forall2 extracts (filter regular names) ts.
Proof.
  revert acc; induction names as [|f names IH]; intros acc H.
  - inv H. split; [symmetry; apply app_nil_r|]. exists []. split; [symmetry; apply app_nil_r|constructor].
  - apply fold_result_cons_Ok in H as (acc' & Hb & Hr).
    unfold load_resumes_body in Hb. simpl. fold (regular f) in Hb |- *.
    destruct (regular f).
    + apply bind_Ok_iff in Hb as (t & Ht & [= <-]).
      destruct (IH _ Hr) as [Hf (ts & Hts & HF)]. simpl in Hf, Hts.
      split; [rewrite Hf, <- app_assoc; reflexivity|].
      exists (t :: ts). split; [rewrite Hts, <- app_assoc; reflexivity|].
      constructor; assumption.
    + inv Hb. now apply IH.
Qed.

Lemma scan_loop_Ok names acc r :
  fold_result (scan_folder_body fs) names acc = Ok r ->
  folder_files r = folder_files acc ++ filter kept_rm names /\
  exists ts, folder_resumes r = folder_resumes acc ++ ts /\
             folder_buffers r = folder_buffers acc ++ ts /\
             Forall2 (fun f t => extracts f t /\ t <> EmptyString) (filter kept_rm names) ts.
Proof.
  revert acc; induction names as [|f names IH]; intros acc H.
  - inv H. rewrite !app_nil_r. split; [reflexivity|]. exists []. rewrite !app_nil_r. repeat split; constructor.
  - apply fold_result_cons_Ok in H as (acc' & Hb & Hr).
    unfold scan_folder_body in Hb. cbn [filter].
    assert (Hk : kept_rm f = regular f &&
      match extract_text_rm fs (os_path_join dataset_folder f) with
      | Ok t => py_truthy t | Raise _ => false end) by reflexivity.
    rewrite Hk. fold (regular f) in Hb.
    destruct (regular f); cbn [andb]; [|inv Hb; now apply IH].
    apply bind_Ok_iff in Hb as (t & Ht & Hb). rewrite Ht.
    destruct (py_truthy t) eqn:Htr; [|inv Hb; now apply IH].
    inv Hb. destruct (IH _ Hr) as [Hf (ts & Hts & Hbs & HF)]. simpl in Hf, Hts, Hbs.
    split; [rewrite Hf, <- app_assoc; reflexivity|].
    exists (t :: ts). rewrite Hts, Hbs, <- !app_assoc. repeat split; auto.
    constructor; auto. split; [exact Ht|].
    intros ->. discriminate.
Qed.
End ExtractionFacts.

Lemma load_loop_total fs names acc :
  Forall (fun f => fs_isfile fs (os_path_join dataset_folder f) = true ->
                   exists t, extract_text fs (os_path_join dataset_folder f) = Ok t) names ->
  exists r, fold_result (load_resumes_body fs) names acc = Ok r.
Proof.
  revert acc; induction names as [|f names IH]; intros acc HF.
  - exists acc. reflexivity.
  - inv HF. cbn [fold_result]. unfold load_resumes_body at 1.
    destruct (fs_isfile fs (os_path_join dataset_folder f)) eqn:Hr; [|now apply IH].
    destruct (H1 eq_refl) as [t Ht]. rewrite Ht. now apply IH.
Qed.

Lemma load_resumes_main_Ok_inv (fs : FileSystem) (c : MainCorpus) :
  load_resumes_main fs = Ok c ->
  exists names, fs_listdir fs dataset_folder = Ok names /\
    resume_filenames c = filter (fun f => fs_isfile fs (os_path_join dataset_folder f)) names /\
    Forall2 (fun f t => extract_text fs (os_path_join dataset_folder f) = Ok t)
            (resume_filenames c) (resume_texts c).
Proof.
  unfold load_resumes_main. intros H. apply bind_Ok_iff in H as (names & Hl & H).
  apply load_loop_Ok in H as [Hf (ts & Hts & HF)]. simpl in Hf, Hts.
  exists names. rewrite Hf, Hts. auto.
Qed.

(** C5: [main.py] builds an index-aligned corpus: when the start-up scan
    succeeds, [resume_filenames] lists the regular files of
    [input_data/] in [os.listdir] order, every one of them, and the
    [i]-th entry of [resume_texts] is the text extracted from the [i]-th
    file, empty texts included. *)
Theorem load_resumes_main_aligned (fs : FileSystem) (c : MainCorpus) :
  load_resumes_main fs = Ok c ->
  exists names, fs_listdir fs dataset_folder = Ok names /\
    resume_filenames c = filter (fun f => fs_isfile fs (os_path_join dataset_folder f)) names /\
    Forall2 (fun f t => extract_text fs (os_path_join dataset_folder f) = Ok t)
            (resume_filenames c) (resume_texts c).
Proof. exact (load_resumes_main_Ok_inv fs c). Qed.

(** C6: one unreadable document stops the whole start-up of [main.py]:
    if a regular file of [input_data/] raises in [extract_text], the
    corpus build raises, however many other files are readable. *)
Theorem load_resumes_main_aborts (fs : FileSystem) names f e :
  fs_listdir fs dataset_folder = Ok names -> In f names ->
  fs_isfile fs (os_path_join dataset_folder f) = true ->
  extract_text fs (os_path_join dataset_folder f) = Raise e ->
  exists e', load_resumes_main fs = Raise e'.
Proof.
  intros Hl Hin Hreg He. destruct (load_resumes_main fs) as [c|e'] eqn:Hc; [exfalso|eauto].
  destruct (load_resumes_main_Ok_inv fs c Hc) as (names' & Hl' & Hf & HF).
  rewrite Hl in Hl'. inv Hl'.
  assert (Hin' : In f (resume_filenames c)) by (rewrite Hf; apply filter_In; auto).
  destruct (Forall2_in_left _ _ _ _ HF Hin') as (t & _ & Ht). congruence.
Qed.

(** C7: the start-up scan of [main.py] succeeds whenever the folder can
    be listed and every regular file in it can be read. *)
Theorem load_resumes_main_succeeds (fs : FileSystem) names :
  fs_listdir fs dataset_folder = Ok names ->
  (forall f, In f names -> fs_isfile fs (os_path_join dataset_folder f) = true ->
             exists t, extract_text fs (os_path_join dataset_folder f) = Ok t) ->
  exists c, load_resumes_main fs = Ok c.
Proof.
  intros Hl Hall. unfold load_resumes_main. rewrite Hl. simpl.
  apply load_loop_total, Forall_forall. exact Hall.
Qed.

Lemma scan_folder_Ok_inv (fs : FileSystem) (c : FolderCorpus) :
  scan_folder fs = Ok c ->
  (fs_exists fs dataset_folder = false /\ c = empty_folder_corpus) \/
  exists names, fs_listdir fs dataset_folder = Ok names /\
    folder_files c = filter (kept_rm fs) names /\
    folder_buffers c = folder_resumes c /\
    Forall2 (fun f t => extract_text fs (os_path_join dataset_folder f) = Ok t /\ t <> EmptyString)
            (folder_files c) (folder_resumes c).
Proof.
  unfold scan_folder. destruct (fs_exists fs dataset_folder); intros H; [right|left; now inv H].
  apply bind_Ok_iff in H as (names & Hl & H).
  apply scan_loop_Ok in H as [Hf (ts & Hts & Hbs & HF)]. simpl in Hf, Hts, Hbs.
  exists names. rewrite Hf, Hts, Hbs. auto.
Qed.

(** C8: [Resume-Match.py] builds a corpus of non-empty texts: when the
    scan succeeds, either the folder is missing and the three lists are
    empty, or [folder_files] lists, in [os.listdir] order, exactly the
    regular files whose text is non-empty, [folder_resumes] holds their
    texts index by index, and [folder_buffers] the same texts. *)
Theorem scan_folder_correct (fs : FileSystem) (c : FolderCorpus) :
  scan_folder fs = Ok c ->
  (fs_exists fs dataset_folder = false /\ c = empty_folder_corpus) \/
  exists names, fs_listdir fs dataset_folder = Ok names /\
    folder_files c = filter (kept_rm fs) names /\
    folder_buffers c = folder_resumes c /\
    Forall2 (fun f t => extract_text fs (os_path_join dataset_folder f) = Ok t /\ t <> EmptyString)
            (folder_files c) (folder_resumes c).
Proof. exact (scan_folder_Ok_inv fs c). Qed.

Local Open Scope string_scope.

(** ** A sample folder

    [cv1.txt] is a readable text file, [logo.png] an image, [scan.pdf]
    a scanned PDF whose pages carry no text, [old] a sub-directory. *)

Definition sample_listing : list string := ["cv1.txt"; "logo.png"; "scan.pdf"; "old"].

Definition sample_fs_with (txt : result string) : FileSystem := {|
  fs_exists := fun p => String.eqb p dataset_folder;
  fs_listdir := fun p => if String.eqb p dataset_folder then Ok sample_listing else Raise OSError;
  fs_isfile := fun p => negb (String.eqb p "input_data/old");
  pdf_page_texts := fun p =>
    if String.eqb p "input_data/scan.pdf" then Ok [EmptyString; EmptyString] else Raise PdfReadError;
  docx_process := fun _ => Raise BadZipFile;
  read_utf8 := fun p => if String.eqb p "input_data/cv1.txt" then txt else Raise OSError |}.

Definition sample_fs : FileSystem := sample_fs_with (Ok "python developer").

(** The same folder where [cv1.txt] is not valid UTF-8. *)
Definition sample_fs_bad : FileSystem := sample_fs_with (Raise UnicodeDecodeError).

Definition sample_main_corpus : MainCorpus :=
  {| resume_filenames := ["cv1.txt"; "logo.png"; "scan.pdf"];
     resume_texts := ["python developer"; EmptyString; EmptyString] |}.

Definition sample_rm_corpus : FolderCorpus :=
  {| folder_resumes := ["python developer"]; folder_files := ["cv1.txt"];
     folder_buffers := ["python developer"] |}.

(** [main.py] keeps the image and the text-less PDF with empty texts. *)
Example load_resumes_main_sample : load_resumes_main sample_fs = Ok sample_main_corpus.
Proof. vm_compute. reflexivity. Qed.

(** [Resume-Match.py] keeps only [cv1.txt]. *)
Example scan_folder_sample : scan_folder sample_fs = Ok sample_rm_corpus.
Proof. vm_compute. reflexivity. Qed.

Example load_resumes_main_bad : load_resumes_main sample_fs_bad = Raise UnicodeDecodeError.
Proof. vm_compute. reflexivity. Qed.

Lemma load_resumes_main_aligned_witness :
  List.length (resume_filenames sample_main_corpus) = List.length (resume_texts sample_main_corpus).
Proof.
  destruct (load_resumes_main_aligned sample_fs sample_main_corpus
              ltac:(vm_compute; reflexivity)) as (names & _ & _ & HF).
  exact (Forall2_length HF).
Defined.

Lemma load_resumes_main_aborts_witness :
  exists e', load_resumes_main sample_fs_bad = Raise e'.
Proof.
  apply (load_resumes_main_aborts sample_fs_bad sample_listing "cv1.txt" UnicodeDecodeError).
  - vm_compute. reflexivity.
  - simpl. auto.
  - vm_compute. reflexivity.
  - vm_compute. reflexivity.
Defined.

Lemma load_resumes_main_succeeds_witness : exists c, load_resumes_main sample_fs = Ok c.
Proof.
  apply (load_resumes_main_succeeds sample_fs sample_listing); [vm_compute; reflexivity|].
  intros f Hf _. simpl in Hf.
  destruct Hf as [<-|[<-|[<-|[<-|[]]]]]; eexists; vm_compute; reflexivity.
Defined.

Lemma scan_folder_correct_witness :
  folder_files sample_rm_corpus = filter (kept_rm sample_fs) sample_listing.
Proof.
  destruct (scan_folder_correct sample_fs sample_rm_corpus ltac:(vm_compute; reflexivity))
    as [[H _]|(names & Hl & Hf & _)]; [vm_compute in H; discriminate|].
  vm_compute in Hl. injection Hl as <-. exact Hf.
Defined.
