(* ===== verification/Pipeline.v ===== *)
(** * The request handlers of both front ends

    [main.py]: [main_startup] is the module-level code (the corpus scan of
    lines 81-88, then [TfidfVectorizer().fit] and [transform] at lines
    90-91); [matcher] is the handler of [POST /matcher] (lines 98-127):
    validation of the job description, similarities, the top five, one
    result row per index with the fields of [parse_resume_spacy].

    The vectorizer of scikit-learn is the interface [Vectorizer]: [vec_fit]
    learns a model from the corpus texts or raises, [vec_similarities]
    is [cosine_similarity(vectorizer.transform([q]), resume_vectors)[0]].
    Its laws [VectorizerLaws] state what the handlers rely on: one
    similarity per corpus text, and [fit] raising on an empty corpus. *)

From Stdlib Require Import List Arith Lia Bool String Ascii QArith.
From S2P Require Import Spec2Rocq Text Matcher Extract.
Import ListNotations.
Local Open Scope nat_scope.

(** ** The vectorizer interface *)

Class Vectorizer (Model Sc : Type) := {
  vec_fit : list string -> result Model;
  vec_similarities : Model -> list string -> string -> list Sc
}.

Class VectorizerLaws (Model Sc : Type) `{Vectorizer Model Sc} : Prop := {
  vec_similarities_length : forall m texts q,
    List.length (vec_similarities m texts q) = List.length texts;
  vec_fit_empty : vec_fit [] = Raise EmptyVocabulary
}.

(** ** [main.py] *)

Section MainApp.
Context {Model Sc T P : Type} `{ScoreOrder Sc} `{ArgSort Sc} `{Vectorizer Model Sc}.

(** [round(similarities[i] * 100)], the displayed score. *)
Variable fmt : Sc -> T.
(** [parse_resume_spacy] ([main.py] lines 25-52). *)
Variable parse_resume : string -> P.

(** The module-level state after start-up. *)
Record MainApp := {
  app_filenames : list string;
  app_texts : list string;
  app_model : Model
}.

(** [main.py] lines 81-91. *)
Definition main_startup (fs : FileSystem) : result MainApp :=
  c <- load_resumes_main fs ;;
  m <- vec_fit (resume_texts c) ;;
  Ok {| app_filenames := resume_filenames c; app_texts := resume_texts c; app_model := m |}.

(** One entry of [matched_resumes] (lines 116-123). *)
Record MatchRow := {
  row_filename : string;
  row_score : T;
  row_parsed : P
}.

Inductive MainResponse :=
| MainPrompt (message : string)                       (* line 103 *)
| MainMatched (message : string) (rows : list MatchRow). (* lines 125-127 *)

Definition match_row (app : MainApp) (sims : list Sc) (i : nat) : MatchRow :=
  {| row_filename := nth i (app_filenames app) EmptyString;
     row_score := fmt (sim_at sims i);
     row_parsed := parse_resume (nth i (app_texts app) EmptyString) |}.

(** [matcher()], lines 99-127. *)
Definition matcher (app : MainApp) (job_desc : string) : MainResponse :=
  if String.eqb (py_strip job_desc) EmptyString then
    MainPrompt "Please enter a job description."
  else
    let sims := vec_similarities (app_model app) (app_texts app) job_desc in
    let top_indices := top_indices_main sims in
    MainMatched "Top matching resumes from dataset:" (map (match_row app sims) top_indices).

End MainApp.

(** ** [Resume-Match.py] and [pages/Admin.py]

    Streamlit re-runs the whole script on every interaction.  What
    survives a run is on disk: the pickle [resume_vectors4.pkl] (the
    fitted model with the corpus it was fitted on) and the pickle
    [similarity_data4.pkl] (the last table of matches). *)

Section RMApp.
Context {Model Sc T : Type} `{ScoreOrder Sc} `{ArgSort Sc} `{Vectorizer Model Sc}.

(** [round(similarities[i] * 100, 2)] *)
Variable fmt : Sc -> T.

(** The dictionary pickled at lines 67-73; the vectors are those of
    [fit_transform] on [resumes], recomputed from them by
    [vec_similarities]. *)
Record Snapshot := {
  snap_model : Model;
  snap_files : list string;
  snap_resumes : list string;
  snap_buffers : list string
}.

Record Disk := {
  vectors_pkl : option Snapshot;              (* resume_vectors4.pkl *)
  similarity_pkl : option (list (string * T))  (* similarity_data4.pkl: Name, Similarity *)
}.

(** What one run shows after the button. *)
Inductive RMOutcome :=
| RMIdle                                   (* button not pressed *)
| RMWarning                                (* line 88 *)
| RMNoMatches                              (* line 100 *)
| RMResults (rows : list (string * T * string)). (* lines 112-118: file, score, text[:800] *)

(** Lines 62-81: fit and pickle, or load the pickle. *)
Definition load_or_fit (disk : Disk) (c : FolderCorpus) : result (Disk * Snapshot) :=
  match vectors_pkl disk with
  | None =>
      m <- vec_fit (folder_resumes c) ;;
      let s := {| snap_model := m; snap_files := folder_files c;
                  snap_resumes := folder_resumes c; snap_buffers := folder_buffers c |} in
      Ok ({| vectors_pkl := Some s; similarity_pkl := similarity_pkl disk |}, s)
  | Some s => Ok (disk, s)
  end.

(** Lines 86-118, once the corpus and the model are known. *)
Definition rm_match (disk : Disk) (s : Snapshot) (skill_weight experience_weight : nat)
    (job_description : string) : Disk * RMOutcome :=
  if String.eqb (py_strip job_description) EmptyString then (disk, RMWarning)
  else
    let boosted := boosted_job job_description skill_weight experience_weight in
    let similarities := vec_similarities (snap_model s) (snap_resumes s) boosted in
    match top_matches fmt similarities with
    | [] => (disk, RMNoMatches)
    | tm =>
        let df_sim := map (fun '(i, score) => (nth i (snap_files s) EmptyString, score)) tm in
        ({| vectors_pkl := vectors_pkl disk; similarity_pkl := Some df_sim |},
         RMResults (map (fun '(i, score) =>
                           (nth i (snap_files s) EmptyString, score,
                            substring 0 800 (nth i (snap_resumes s) EmptyString))) tm))
    end.

(** One run of the script: the folder scan, the vectoriser, and the
    button [clicked] with the slider values and the text area. *)
Definition rm_run (fs : FileSystem) (disk : Disk) (skill_weight experience_weight : nat)
    (job_description : string) (clicked : bool) : result (Disk * RMOutcome) :=
  c <- scan_folder fs ;;
  ds <- load_or_fit disk c ;;
  let '(disk', s) := ds in
  if clicked then Ok (rm_match disk' s skill_weight experience_weight job_description)
  else Ok (disk', RMIdle).

(** [pages/Admin.py] lines 14-30: the table and bar chart of
    [df_sim.head(10)], the pie chart of [df_sim.head(5)] when the box
    is ticked, or the info message when the pickle is missing. *)
Inductive AdminView :=
| AdminInfo
| AdminDashboard (table : list (string * T)) (bars : list (string * T))
                 (pie : option (list (string * T))).

Definition admin_view (disk : Disk) (show_pie : bool) : AdminView :=
  match similarity_pkl disk with
  | None => AdminInfo
  | Some df_sim =>
      AdminDashboard (firstn 10 df_sim) (firstn 10 df_sim)
                     (if show_pie then Some (firstn 5 df_sim) else None)
  end.

End RMApp.

(** ** Facts about the handlers *)

Section MainFacts.
Context {Model Sc T P : Type} `{ScoreOrder Sc} `{ArgSort Sc} `{!ArgSortLaws Sc}
        `{Vectorizer Model Sc} `{!VectorizerLaws Model Sc}.
Variable fmt : Sc -> T.
Variable parse_resume : string -> P.

Lemma main_startup_Ok fs app :
  main_startup fs = Ok app ->
  exists c, load_resumes_main fs = Ok c /\ vec_fit (resume_texts c) = Ok (app_model app) /\
            app_filenames app = resume_filenames c /\ app_texts app = resume_texts c.
Proof.
  unfold main_startup. intros Hs.
  apply bind_Ok_iff in Hs as (c & Hc & Hs). apply bind_Ok_iff in Hs as (m & Hm & [= <-]).
  exists c. auto.
Qed.

(** C9: [main.matcher] rejects a job description made only of white
    space with the prompt message, before any similarity is computed. *)
Theorem matcher_blank (app : MainApp) (job_desc : string) :
  forallb py_isspace (list_ascii_of_string job_desc) = true ->
  matcher fmt parse_resume app job_desc = MainPrompt "Please enter a job description.".
Proof.
  intros Hb. unfold matcher. apply py_strip_empty_iff in Hb. now rewrite Hb.
Qed.

(** C10: end to end, after a successful start-up of [main.py], a
    non-blank job description gets [min 5 n] result rows for the [n]
    scanned files, and every row names a regular file of [input_data/]
    whose fields were parsed from that same file's extracted text: the
    corpus stays index-aligned through ranking and enrichment. *)
Theorem matcher_main_correct (fs : FileSystem) (app : MainApp) (job_desc : string) :
  main_startup fs = Ok app ->
  py_strip job_desc <> EmptyString ->
  exists rows,
    matcher fmt parse_resume app job_desc = MainMatched "Top matching resumes from dataset:" rows /\
    List.length rows = Nat.min 5 (List.length (app_filenames app)) /\
    Forall (fun r => exists i f t,
              nth_error (app_filenames app) i = Some f /\ nth_error (app_texts app) i = Some t /\
              fs_isfile fs (os_path_join dataset_folder f) = true /\
              extract_text fs (os_path_join dataset_folder f) = Ok t /\
              row_filename r = f /\ row_parsed r = parse_resume t) rows.
Proof.
  intros Hs Hj. apply main_startup_Ok in Hs as (c & Hc & _ & Hf & Ht).
  destruct (load_resumes_main_Ok_inv fs c Hc) as (names & _ & Hfil & HF).
  pose proof (Forall2_length HF) as Hlen.
  unfold matcher. destruct (String.eqb_spec (py_strip job_desc) EmptyString); [contradiction|].
  cbv zeta. set (sims := vec_similarities (app_model app) (app_texts app) job_desc).
  assert (Hsl : List.length sims = List.length (app_filenames app))
    by (subst sims; rewrite vec_similarities_length, Ht, Hf; auto).
  pose proof (top_indices_main_length sims) as Hl. pose proof (top_indices_main_valid sims) as Hv.
  eexists. split; [reflexivity|]. split; [rewrite length_map, Hl, Hsl; reflexivity|].
  apply Forall_map. eapply Forall_impl; [|exact Hv]. intros i Hi. rewrite Hsl in Hi.
  rewrite Hf in Hi |- *. rewrite Ht.
  pose proof (nth_error_nth' _ EmptyString Hi) as Hn.
  destruct (Forall2_nth_error _ _ _ _ _ HF Hn) as (t & Htn & Hx).
  exists i, (nth i (resume_filenames c) EmptyString), t.
  split; [exact Hn|]. split; [exact Htn|]. split.
  { pose proof Hn as Hin. rewrite Hfil in Hin |- *.
    apply nth_error_In, filter_In in Hin. apply Hin. }
  split; [exact Hx|]. simpl. rewrite Hf, Ht. split; [reflexivity|].
  now rewrite (nth_error_nth _ _ EmptyString Htn).
Qed.
End MainFacts.

Section RMFacts.
Context {Model Sc T : Type} `{ScoreOrder Sc} `{ArgSort Sc} `{!ArgSortLaws Sc}
        `{Vectorizer Model Sc} `{!VectorizerLaws Model Sc}.
Variable fmt : Sc -> T.

(** C11: once [resume_vectors4.pkl] exists, a run of [Resume-Match.py]
    does not depend on the folder any more: two folders that both scan
    without error give the same run, whatever files they hold.  Adding,
    removing or editing a resume is never seen by the matcher. *)
Theorem rm_run_ignores_folder (fs1 fs2 : FileSystem) (disk : Disk) (s : Snapshot) c1 c2
    skill_weight experience_weight job_description clicked :
  vectors_pkl disk = Some s -> scan_folder fs1 = Ok c1 -> scan_folder fs2 = Ok c2 ->
  rm_run fmt fs1 disk skill_weight experience_weight job_description clicked =
  rm_run fmt fs2 disk skill_weight experience_weight job_description clicked.
Proof.
  intros Hs Hc1 Hc2. unfold rm_run. rewrite Hc1, Hc2. simpl. unfold load_or_fit. now rewrite Hs.
Qed.

(** C12: on the first run (no [resume_vectors4.pkl]), a folder that
    yields no non-empty text (missing, empty, or only unreadable or
    text-less files) makes [fit_transform] raise scikit-learn's
    "empty vocabulary" error: the page crashes before any widget. *)
Theorem rm_run_empty_corpus (fs : FileSystem) (disk : Disk) (c : FolderCorpus)
    skill_weight experience_weight job_description clicked :
  vectors_pkl disk = None -> scan_folder fs = Ok c -> folder_resumes c = [] ->
  rm_run fmt fs disk skill_weight experience_weight job_description clicked = Raise EmptyVocabulary.
Proof.
  intros Hn Hc He. unfold rm_run. rewrite Hc. simpl. unfold load_or_fit.
  now rewrite Hn, He, vec_fit_empty.
Qed.

(** The state the pickles are kept in: the snapshot's files and texts
    are aligned, and the similarity table has one to five rows, each
    naming a file of the snapshot. *)
Definition disk_ok (d : @Disk Model T) : Prop :=
  (forall s, vectors_pkl d = Some s -> List.length (snap_files s) = List.length (snap_resumes s)) /\
  (forall df, similarity_pkl d = Some df ->
     1 <= List.length df <= 5 /\
     exists s, vectors_pkl d = Some s /\ Forall (fun p : string * T => In (fst p) (snap_files s)) df).

(** The disks a sequence of runs can leave, from a fresh working
    directory. *)
Inductive rm_reach : @Disk Model T -> Prop :=
| rm_reach_init : rm_reach {| vectors_pkl := None; similarity_pkl := None |}
| rm_reach_run d fs skill_weight experience_weight job_description clicked d' out :
    rm_reach d ->
    rm_run fmt fs d skill_weight experience_weight job_description clicked = Ok (d', out) ->
    rm_reach d'.

Lemma scan_folder_aligned fs c :
  scan_folder fs = Ok c ->
  List.length (folder_files c) = List.length (folder_resumes c).
Proof.
  intros Hc. destruct (scan_folder_Ok_inv fs c Hc) as [[_ ->]|(names & _ & _ & _ & HF)];
    [reflexivity|exact (Forall2_length HF)].
Qed.

Lemma load_or_fit_ok fs d c d1 s :
  disk_ok d -> scan_folder fs = Ok c -> load_or_fit d c = Ok (d1, s) ->
  disk_ok d1 /\ vectors_pkl d1 = Some s.
Proof.
  intros [Hv Hd] Hc. unfold load_or_fit. destruct (vectors_pkl d) as [s0|] eqn:E.
  - intros [= <- <-]. split; [unfold disk_ok; rewrite E; split; assumption|exact E].
  - intros Hf. apply bind_Ok_iff in Hf as (m & _ & [= <- <-]).
    split; [split|reflexivity]; simpl.
    + intros s' [= <-]. simpl. now apply (scan_folder_aligned fs).
    + intros df Hdf. destruct (Hd df Hdf) as (_ & s' & C & _). congruence.
Qed.

Lemma rm_match_ok d s sw ew jd d' out :
  disk_ok d -> vectors_pkl d = Some s -> rm_match fmt d s sw ew jd = (d', out) -> disk_ok d'.
Proof.
  intros [Hv Hd] Hs. unfold rm_match.
  destruct (String.eqb (py_strip jd) EmptyString); [intros [= <- _]; split; auto|].
  set (sims := vec_similarities (snap_model s) (snap_resumes s) (boosted_job jd sw ew)).
  pose proof (top_matches_length_le fmt sims) as Hle.
  assert (Hix : forall i v, In (i, v) (top_matches fmt sims) -> i < List.length sims)
    by (intros i v Hin; apply (top_matches_fst_valid fmt sims i v Hin)).
  destruct (top_matches fmt sims) as [|p tm] eqn:E; [intros [= <- _]; split; auto|].
  intros [= <- _]. split; [exact Hv|]. intros df Hdf. injection Hdf as <-.
  assert (Hin_files : forall i v, In (i, v) (p :: tm) -> In (nth i (snap_files s) EmptyString) (snap_files s)).
  { intros i v Hin. apply nth_In. rewrite (Hv s Hs).
    apply Hix in Hin. subst sims. now rewrite vec_similarities_length in Hin. }
  split; [simpl in Hle |- *; rewrite length_map; lia|].
  exists s. split; [exact Hs|].
  destruct p as [i0 v0]. constructor; [simpl; apply (Hin_files i0 v0); now left|].
  apply Forall_forall. intros [name v] Hin.
  apply in_map_iff in Hin as ([i v'] & Heq & Hin). injection Heq as <- _. simpl.
  apply (Hin_files i v'). now right.
Qed.

Lemma rm_reach_ok (d : Disk) : rm_reach d -> disk_ok d.
Proof.
  induction 1 as [|d fs sw ew jd clicked d' out _ IH Hrun].
  - split; simpl; discriminate.
  - unfold rm_run in Hrun. apply bind_Ok_iff in Hrun as (c & Hc & Hrun).
    apply bind_Ok_iff in Hrun as ([d1 s] & Hl & Hrun).
    destruct (load_or_fit_ok fs d c d1 s IH Hc Hl) as [Hok1 Hs1].
    destruct clicked; injection Hrun as Hrun; [|subst; exact Hok1].
    destruct (rm_match fmt d1 s sw ew jd) as [d2 o] eqn:Em. injection Hrun as <- _.
    exact (rm_match_ok _ _ _ _ _ _ _ Hok1 Hs1 Em).
Qed.

(** C13: every disk state a sequence of runs of [Resume-Match.py] can
    produce from a fresh directory keeps the pickled corpus aligned and
    a similarity table of one to five rows, each naming a file of the
    pickled corpus. *)
Theorem rm_reach_disk_ok (d : Disk) : rm_reach d -> disk_ok d.
Proof. exact (rm_reach_ok d). Qed.
End RMFacts.

Section AdminFacts.
Context {Model Sc T : Type} `{ScoreOrder Sc} `{ArgSort Sc} `{!ArgSortLaws Sc}
        `{Vectorizer Model Sc} `{!VectorizerLaws Model Sc}.
Variable fmt : Sc -> T.

(** C14: on every disk the runs of [Resume-Match.py] can leave, the
    Admin page's "first ten" table and its bar chart show the whole
    similarity table, one to five rows, and the "top 5" pie chart shows
    that same table: [head(10)] and [head(5)] never differ. *)
Theorem admin_view_reachable (d : @Disk Model T) (show_pie : bool) table bars pie :
  rm_reach fmt d -> admin_view d show_pie = AdminDashboard table bars pie ->
  1 <= List.length table <= 5 /\ bars = table /\ (show_pie = true -> pie = Some table).
Proof.
  intros Hr Hv. destruct (rm_reach_ok fmt d Hr) as [_ Hd].
  unfold admin_view in Hv. destruct (similarity_pkl d) as [df|] eqn:E; [|discriminate].
  destruct (Hd df eq_refl) as [Hl _].
  rewrite (firstn_all2 (n := 10) df), (firstn_all2 (n := 5) df) in Hv by lia.
  injection Hv as <- <- <-. repeat split; try lia. intros ->. reflexivity.
Qed.
End AdminFacts.

(** ** Concrete runs

    A stand-in vectorizer with the interface's laws, for evaluating the
    handlers: the score of a resume is the number of its tokens that
    occur in the query.  (The model of scikit-learn's own vectorizer is
    in [Tfidf].) *)

Definition overlap_score (q t : string) : Q :=
  inject_Z (Z.of_nat (List.length
    (filter (fun w => existsb (String.eqb w) (sk_analyze [] q)) (sk_analyze [] t)))).

#[export] Instance Vectorizer_overlap : Vectorizer unit Q := {|
  vec_fit := fun texts => match texts with [] => Raise EmptyVocabulary | _ => Ok tt end;
  vec_similarities := fun _ texts q => map (overlap_score q) texts
|}.

#[export] Instance VectorizerLaws_overlap : VectorizerLaws unit Q.
Proof. split; [intros; apply length_map|reflexivity]. Qed.

Local Open Scope string_scope.

Definition sample_app : @MainApp unit :=
  {| app_filenames := ["cv1.txt"; "logo.png"; "scan.pdf"];
     app_texts := ["python developer"; ""; ""]; app_model := tt |}.

Example main_startup_sample : main_startup (Sc := Q) sample_fs = Ok sample_app.
Proof. vm_compute. reflexivity. Qed.

(** [main.matcher] returns the image and the text-less PDF, of score 0,
    after the one matching resume. *)
Example matcher_sample :
  matcher (fun q : Q => q) (fun t => t) sample_app "python"
  = MainMatched "Top matching resumes from dataset:"
      [{| row_filename := "cv1.txt"; row_score := 1%Q; row_parsed := "python developer" |};
       {| row_filename := "scan.pdf"; row_score := 0%Q; row_parsed := "" |};
       {| row_filename := "logo.png"; row_score := 0%Q; row_parsed := "" |}].
Proof. vm_compute. reflexivity. Qed.

Lemma matcher_blank_witness :
  matcher (fun q : Q => q) (fun t => t) sample_app "  "
  = MainPrompt "Please enter a job description.".
Proof. apply matcher_blank. reflexivity. Defined.

Lemma matcher_main_correct_witness :
  exists rows, matcher (fun q : Q => q) (fun t => t) sample_app "python"
               = MainMatched "Top matching resumes from dataset:" rows /\
               List.length rows = 3.
Proof.
  destruct (matcher_main_correct (fun q : Q => q) (fun t => t) sample_fs sample_app "python")
    as (rows & Hm & Hl & _); [vm_compute; reflexivity|vm_compute; discriminate|].
  exists rows. split; [exact Hm|]. rewrite Hl. reflexivity.
Defined.

(** A second folder: the same files, [cv1.txt] rewritten. *)
Definition sample_fs2 : FileSystem := sample_fs_with (Ok "java engineer").

(** The same folder, missing. *)
Definition missing_fs : FileSystem :=
  {| fs_exists := fun _ => false; fs_listdir := fun _ => Raise OSError;
     fs_isfile := fun _ => false; pdf_page_texts := fun _ => Raise OSError;
     docx_process := fun _ => Raise OSError; read_utf8 := fun _ => Raise OSError |}.

Definition fresh_disk : @Disk unit Q := {| vectors_pkl := None; similarity_pkl := None |}.

(** The first run with the button pressed. *)
Definition sample_disk : @Disk unit Q :=
  {| vectors_pkl := Some {| snap_model := tt; snap_files := ["cv1.txt"];
                            snap_resumes := ["python developer"];
                            snap_buffers := ["python developer"] |};
     similarity_pkl := Some [("cv1.txt", 1%Q)] |}.

Example rm_run_sample :
  rm_run (fun q : Q => q) sample_fs fresh_disk 3 3 "python" true
  = Ok (sample_disk, RMResults [("cv1.txt", 1%Q, "python developer")]).
Proof. vm_compute. reflexivity. Qed.

(** After the rewrite of [cv1.txt] the pickled old text still matches. *)
Example rm_run_stale :
  rm_run (fun q : Q => q) sample_fs2 sample_disk 3 3 "python" true
  = Ok (sample_disk, RMResults [("cv1.txt", 1%Q, "python developer")]).
Proof. vm_compute. reflexivity. Qed.

Lemma rm_run_ignores_folder_witness :
  rm_run (fun q : Q => q) sample_fs sample_disk 3 3 "python" true =
  rm_run (fun q : Q => q) sample_fs2 sample_disk 3 3 "python" true.
Proof.
  apply (rm_run_ignores_folder _ sample_fs sample_fs2 sample_disk
           {| snap_model := tt; snap_files := ["cv1.txt"]; snap_resumes := ["python developer"];
              snap_buffers := ["python developer"] |}
           sample_rm_corpus {| folder_resumes := ["java engineer"]; folder_files := ["cv1.txt"];
                               folder_buffers := ["java engineer"] |});
    vm_compute; reflexivity.
Defined.

Lemma rm_run_empty_corpus_witness :
  rm_run (fun q : Q => q) missing_fs fresh_disk 3 3 "python" true = Raise EmptyVocabulary.
Proof.
  apply (rm_run_empty_corpus _ missing_fs fresh_disk empty_folder_corpus); vm_compute; reflexivity.
Defined.

Lemma sample_disk_reach : rm_reach (fun q : Q => q) sample_disk.
Proof.
  apply (rm_reach_run _ fresh_disk sample_fs 3 3 "python" true sample_disk
           (RMResults [("cv1.txt", 1%Q, "python developer")])); [constructor|].
  vm_compute. reflexivity.
Qed.

Lemma rm_reach_disk_ok_witness : disk_ok sample_disk.
Proof. apply (rm_reach_disk_ok (fun q : Q => q)), sample_disk_reach. Defined.

Lemma admin_view_reachable_witness :
  1 <= List.length [("cv1.txt", 1%Q)] <= 5.
Proof.
  destruct (admin_view_reachable (fun q : Q => q) sample_disk true
              [("cv1.txt", 1%Q)] [("cv1.txt", 1%Q)] (Some [("cv1.txt", 1%Q)])
              sample_disk_reach ltac:(vm_compute; reflexivity)) as [Hl _].
  exact Hl.
Defined.
